(** * Coinbase premium fetcher: the premium calculator and the history merger

    A shallow embedding of [calculate_premium] and [update_premium_history]
    of [fetch_data.py], with the pieces of the Python runtime they rest on
    (binary64 floats, [round], list indexing, negative slices), followed by
    the properties of the merge that the persisted [data.json] relies on.
    The parsing loop of [fetch_bitcoin_price] and the run of [main] are
    embedded as functions of what the requests, the clock and the file
    return. *)

From Stdlib Require Import ZArith Floats Lia.
From stdpp Require Import base decidable option orders list sorting strings
  fin_maps gmap.

Open Scope nat_scope.

(** ** Python runtime *)

Module Py.

(** The exceptions the embedded code can raise. *)
Inductive exn := IndexError | ValueError.

(** A call either returns a value or raises. *)
Inductive result (A : Type) :=
| Ok (a : A)
| Raise (e : exn).
Arguments Ok {A} a.
Arguments Raise {A} e.

Definition bind {A B} (r : result A) (k : A → result B) : result B :=
  match r with
  | Ok a => k a
  | Raise e => Raise e
  end.

(** [l.index(x)]: the position of the first element equal to [x];
    [ValueError] when there is none. *)
Definition index `{EqDecision A} (l : list A) (x : A) : result nat :=
  match list_find (x =.) l with
  | Some (i, _) => Ok i
  | None => Raise ValueError
  end.

(** [l[i] = v] for an index [i >= 0]: [IndexError] out of range. *)
Definition setitem {A} (l : list A) (i : nat) (v : A) : result (list A) :=
  if decide (i < length l) then Ok (<[i:=v]> l) else Raise IndexError.

(** [l[-n:]] for [n > 0]: the last [n] elements, the whole list when it
    is shorter (the start of the slice is clamped to 0). *)
Definition last_n {A} (n : nat) (l : list A) : list A :=
  drop (length l - n) l.

(** Rounding of the non-negative fraction [n / d] to an integer, ties to
    the even neighbour. *)
Definition round_half_even (n d : Z) : Z :=
  let q := (n / d)%Z in
  match (2 * (n mod d) ?= d)%Z with
  | Lt => q
  | Gt => (q + 1)%Z
  | Eq => if Z.even q then q else (q + 1)%Z
  end.

(** The binary64 nearest to the decimal [(-1)^s * k / 10^ndigits], as
    CPython's correctly rounded [strtod] reads it ([k >= 0]; a zero keeps
    its sign). *)
Definition decimal_to_float (s : bool) (k : Z) (ndigits : nat) : float :=
  match k with
  | Z.pos k' =>
      SF2Prim (SFdiv prec emax (S754_finite s k' 0)
                 (S754_finite false (Z.to_pos (10 ^ Z.of_nat ndigits)) 0))
  | _ => SF2Prim (S754_zero s)
  end.

(** [round(x, ndigits)] on a float, [ndigits >= 0] (the code rounds to 4
    digits). CPython prints the exact binary value [m * 2^e] of [x] with
    [ndigits] decimals, correctly rounded with ties to even, and reads the
    decimal [k / 10^ndigits] back as the nearest binary64; the sign is
    kept, also on a zero result; zeros, infinities and NaN round to
    themselves. *)
Definition round (x : float) (ndigits : nat) : float :=
  match Prim2SF x with
  | S754_finite s m e =>
      let p := (10 ^ Z.of_nat ndigits)%Z in
      let k := if (0 <=? e)%Z then (Z.pos m * 2 ^ e * p)%Z
               else round_half_even (Z.pos m * p) (2 ^ (- e)) in
      decimal_to_float s k ndigits
  | _ => x
  end.

End Py.

Import Py.

Notation "x ← r ; k" := (bind r (λ x, k))
  (at level 20, r at level 100, k at level 200, only parsing, right associativity).

(** ** The persisted document *)

(** Calendar days are the ["%Y-%m-%d"] strings of [strftime]. *)
Definition date := string.

(** The keys of [data.json] that [update_premium_history] reads; [None]
    stands for a key that is absent from the dict. The other keys
    ([dates], [btc_prices], [last_updated]) are never read back. An empty
    dict is falsy, and holds neither key. This is the type of the
    well-typed documents, those that hold a list of strings under
    [premium_dates] and a list of numbers under [premium_index], as every
    document written by [main] does. A file edited by hand can hold other
    JSON values under these keys ([null], a string, an object, a list
    with [null] entries); on those lines 137-148 and 200 raise [TypeError]
    or [AttributeError], and they are outside this type: every statement
    below about a document is a statement about well-typed documents. *)
Record document := Document {
  premium_dates : option (list date);
  premium_index : option (list float);
}.

(** A premium history as [update_premium_history] returns it: the pair
    [(premium_dates, premium_values)]. *)
Definition history : Type := list date * list float.

(** ** Premium calculator (lines 105-119) *)

Definition calculate_premium (coinbase_price binance_price : option float)
    : option float :=
  match coinbase_price, binance_price with
  | Some coinbase_price, Some binance_price =>
      if (binance_price =? 0)%float then None
      else
        let premium :=
          ((coinbase_price - binance_price) / binance_price * 100)%float in
        Some (round premium 4)
  | _, _ => None
  end.

(** ** "Rounded to 4 decimal places", as the specification words it *)



(** ** History merger (lines 122-152) *)

(** Lines 128-133: the prior arrays when the document is there and holds
    both keys, two empty lists otherwise. *)
Definition starting_history (existing_data : option document) : history :=
  match existing_data with
  | Some d =>
      match premium_dates d, premium_index d with
      | Some dates, Some values => (dates, values)
      | _, _ => ([], [])
      end
  | None => ([], [])
  end.

(** Lines 136-145: append today's point, or overwrite the value at the
    first position of today's date. The source updates the lists of
    [existing_data] in place; [main] does not read [existing_data] again,
    so the lists are modelled by the values returned. *)
Definition add_today (h : history) (today : date) (today_premium : option float)
    : result history :=
  let '(dates, values) := h in
  match today_premium with
  | Some p =>
      if decide (today ∉ dates) then Ok (dates ++ [today], values ++ [p])
      else
        idx ← index dates today;
        values' ← setitem values idx p;
        Ok (dates, values')
  | None => Ok (dates, values)
  end.

(** Lines 148-150: keep the last 365 entries of both arrays when the date
    array is longer than that. *)
Definition keep_last_365 (h : history) : history :=
  let '(dates, values) := h in
  if decide (365 < length dates) then (last_n 365 dates, last_n 365 values)
  else (dates, values).

(** [today] is the value of [datetime.now().strftime('%Y-%m-%d')] at the
    call. *)
Definition update_premium_history (existing_data : option document)
    (today : date) (today_premium : option float) : result history :=
  h ← add_today (starting_history existing_data) today today_premium;
  Ok (keep_last_365 h).

(** A history whose two arrays have the same length. *)
Definition parallel (h : history) : Prop := length h.1 = length h.2.

(** The document [main] writes (lines 184-193) and the next run loads. *)
Definition saved (h : history) : document :=
  Document (Some h.1) (Some h.2).

(** ** Repeated runs *)

(** One merge: the day of the run and the premium computed on it ([None]
    when a spot price was missing). *)
Definition merge_op : Type := date * option float.

(** A run that reaches the merge: the prior document is merged with
    today's premium and the result is saved for the next run. *)
Definition run_once (existing_data : option document) (op : merge_op)
    : result (option document) :=
  h ← update_premium_history existing_data op.1 op.2;
  Ok (Some (saved h)).

Fixpoint run_many (existing_data : option document) (ops : list merge_op)
    : result (option document) :=
  match ops with
  | [] => Ok existing_data
  | op :: ops =>
      existing_data' ← run_once existing_data op;
      run_many existing_data' ops
  end.

(** ** The invariant of a premium history *)

(** Calendar order on ["%Y-%m-%d"] strings is the order of the strings. *)
Definition date_le : relation date := String.le.
Definition date_lt : relation date := strict String.le.

Definition increasing (dates : list date) : Prop := StronglySorted date_lt dates.

(** ** Sample data: every day of 2024, a leap year, with a flat premium *)

Definition two_digits (n : nat) : string :=
  String (Ascii.ascii_of_nat (48 + n / 10))
    (String (Ascii.ascii_of_nat (48 + n mod 10)) "").

Definition month_2024 (month days : nat) : list date :=
  (λ day, "2024-" +:+ two_digits month +:+ "-" +:+ two_digits day) <$> seq 1 days.

Definition year_2024 : list date :=
  concat (imap (λ i days, month_2024 (S i) days)
            [31; 29; 31; 30; 31; 30; 31; 31; 30; 31; 30; 31]).

Definition history_2024 : history := (year_2024, replicate 366 0.5%float).

(** ** Price feed (lines 28-59) *)

Section price_feed.

(** [datetime.fromtimestamp(ms / 1000).strftime('%Y-%m-%d')]: the calendar
    day of a millisecond timestamp in the time zone of the machine; [None]
    when the conversion raises (a timestamp outside the platform's range). *)
Variable local_day : Z → option date.

(** Lines 48-52: each item [[timestamp, price]] of the response sets the
    entry of its day to the price rounded to 2 digits; [None] when a
    conversion raises. *)
Fixpoint prices_loop (prices_by_date : gmap date float)
    (items : list (Z * float)) : option (gmap date float) :=
  match items with
  | [] => Some prices_by_date
  | item :: items =>
      match local_day item.1 with
      | Some date =>
          prices_loop (<[date := round item.2 2]> prices_by_date) items
      | None => None
      end
  end.

(** [response] is [data['prices']] of the market-chart reply, [None] when
    the request, its status check, the parse or the key lookup raises.
    Whatever is raised inside the [try] block, the function returns an
    empty dict. *)
Definition fetch_bitcoin_price (response : option (list (Z * float)))
    : gmap date float :=
  match response with
  | Some items =>
      match prices_loop ∅ items with
      | Some prices_by_date => prices_by_date
      | None => ∅
      end
  | None => ∅
  end.

End price_feed.

(** ** The run (lines 155-202) *)

(** [sorted(l)] on strings: the sorted permutation of [l]. Strings are
    compared by code point, which on their bytes is the order [String.le]. *)
Definition sorted (l : list string) : list string := merge_sort String.le l.

(** The dict that [main] dumps to [data.json] (lines 184-190). *)
Module Output.
Record t := Make {
  dates : list date;
  btc_prices : list float;
  premium_dates : list date;
  premium_index : list float;
  last_updated : string;
}.
End Output.

(** What [main] can raise: the exceptions of the merge, and the
    [KeyError] of a dict lookup. *)
Inductive error := Exn (e : exn) | KeyError.

(** The two observable effects of a run: the dict written to [data.json],
    if the run got that far, and the exception it ended with, if any. *)
Record outcome := Outcome {
  written : option Output.t;
  raised : option error;
}.

(** [main], given what its collaborators return: [existing_data] from
    [load_existing_data], [btc_prices] from [fetch_bitcoin_price], the two
    spot prices from [fetch_coinbase_price] and [fetch_binance_price],
    [today] from [datetime.now()] and [utcnow] from
    [datetime.utcnow().isoformat()]. The spot prices are only fetched once
    the price series is there. After the save, the summary lines index
    [dates[0]], [dates[-1]] and [prices[-1]]. The save itself is taken to
    succeed: an I/O error of [open] or [json.dump] is not modelled. *)
Definition main (existing_data : option document)
    (btc_prices : gmap date float) (coinbase_price binance_price : option float)
    (today : date) (utcnow : string) : outcome :=
  if decide (size btc_prices = 0) then Outcome None None
  else
    let today_premium := calculate_premium coinbase_price binance_price in
    match update_premium_history existing_data today today_premium with
    | Raise e => Outcome None (Some (Exn e))
    | Ok (premium_dates, premium_values) =>
        let dates := sorted (map_to_list btc_prices).*1 in
        match mapM (λ d, btc_prices !! d) dates with
        | None => Outcome None (Some KeyError)
        | Some prices =>
            let output :=
              Output.Make dates prices premium_dates premium_values
                (utcnow +:+ "Z") in
            match head dates, last dates, last prices with
            | Some _, Some _, Some _ => Outcome (Some output) None
            | _, _, _ => Outcome (Some output) (Some (Exn IndexError))
            end
        end
    end.

(** What the next run loads from the file a run leaves behind. A run that
    wrote nothing leaves the file as it was. *)
Definition data_file_after (existing_data : option document) (r : outcome)
    : option document :=
  match written r with
  | Some output =>
      Some (saved (Output.premium_dates output, Output.premium_index output))
  | None => existing_data
  end.

(** The inputs of one run. *)
Record run_input := RunInput {
  run_btc_prices : gmap date float;
  run_coinbase_price : option float;
  run_binance_price : option float;
  run_today : date;
  run_utcnow : string;
}.

Definition main_on (existing_data : option document) (i : run_input) : outcome :=
  main existing_data (run_btc_prices i) (run_coinbase_price i)
    (run_binance_price i) (run_today i) (run_utcnow i).

(** The file after a sequence of runs, each loading what the previous one
    left. *)
Fixpoint data_file_after_runs (existing_data : option document)
    (inputs : list run_input) : option document :=
  match inputs with
  | [] => existing_data
  | i :: inputs =>
      data_file_after_runs
        (data_file_after existing_data (main_on existing_data i)) inputs
  end.

(** The invariant of the persisted premium history, on a given day. *)
Definition valid_on (today : date) (h : history) : Prop :=
  parallel h ∧ increasing h.1 ∧ length h.1 ≤ 365
  ∧ Forall (λ d, date_le d today) h.1.

(** A price series of two days, and a machine on UTC that can only place
    the timestamps of January 1970. *)
Definition sample_prices : gmap date float :=
  <["2024-01-02" := 2.5%float]> (<["2024-01-01" := 7%float]> ∅).

Definition january_1970 (ms : Z) : option date :=
  if decide (0 ≤ ms < 31 * 86400000)%Z
  then Some ("1970-01-" +:+ two_digits (S (Z.to_nat (ms / 86400000))))
  else None.

(** * Properties *)

(** Closed decidable facts about sample data are settled by evaluation. *)
Ltac decide_by_evaluation :=
  apply (bool_decide_unpack _); vm_compute; exact I.

(** ** The runtime pieces *)

Section runtime.
Context {A : Type}.
Implicit Types l : list A.

Lemma last_n_short n l : length l ≤ n → last_n n l = l.
Proof.
  intros Hle. unfold last_n.
  replace (length l - n) with 0 by lia. apply drop_0.
Qed.

Lemma length_last_n n l : length (last_n n l) = length l `min` n.
Proof. unfold last_n. rewrite length_drop. lia. Qed.

(** The slice is what is left once the oldest entries are cut off. *)
Lemma last_n_split n l :
  ∃ old, l = old ++ last_n n l ∧ length old = length l - n.
Proof.
  exists (take (length l - n) l). split.
  - unfold last_n. by rewrite take_drop.
  - rewrite length_take. lia.
Qed.

Lemma setitem_Ok l i v : i < length l → setitem l i v = Ok (<[i:=v]> l).
Proof. intros Hi. unfold setitem. by rewrite decide_True. Qed.

Lemma setitem_Raise l i v : length l ≤ i → setitem l i v = Raise IndexError.
Proof. intros Hi. unfold setitem. rewrite decide_False; [done | lia]. Qed.

(** No occurrence of [x] before position [i]. *)
Lemma not_before_take l x i :
  (∀ j, j < i → l !! j ≠ Some x) ↔ x ∉ take i l.
Proof.
  rewrite elem_of_take. split.
  - intros Hmin (j & Hj & Hlt). by apply (Hmin j).
  - intros Hnot j Hlt Hj. apply Hnot. by exists j.
Qed.

Context `{EqDecision A}.

(** [index] finds the first occurrence of an element that is there. *)
Lemma index_first l x :
  x ∈ l →
  ∃ i, index l x = Ok i ∧ l !! i = Some x ∧ ∀ j, j < i → l !! j ≠ Some x.
Proof.
  intros Hx. unfold index.
  destruct (list_find_elem_of (x =.) l x Hx eq_refl) as [[i y] Hfind].
  rewrite Hfind. apply list_find_Some in Hfind as (Hi & <- & Hmin).
  exists i. split_and!; [done..|].
  intros j Hj Hlook. by apply (Hmin j x).
Qed.

(** The first occurrence is the only position [index] can return. *)
Lemma index_at l x i :
  l !! i = Some x → (∀ j, j < i → l !! j ≠ Some x) → index l x = Ok i.
Proof.
  intros Hi Hmin. unfold index.
  rewrite (proj2 (list_find_Some (x =.) l i x)); [done|].
  split_and!; [done..|]. intros j y Hj Hlt ->. by apply (Hmin j).
Qed.
End runtime.

(** ** The merge, branch by branch *)

Lemma starting_history_saved (H : history) : starting_history (Some (saved H)) = H.
Proof. by destruct H. Qed.

Lemma keep_last_365_short (H : history) :
  length H.1 ≤ 365 → keep_last_365 H = H.
Proof.
  destruct H as [dates values]; simpl. intros Hle.
  rewrite decide_False; [done | lia].
Qed.

Lemma keep_last_365_long (H : history) :
  365 < length H.1 → keep_last_365 H = (last_n 365 H.1, last_n 365 H.2).
Proof. destruct H as [dates values]; simpl. intros Hlt. by rewrite decide_True. Qed.

Lemma keep_last_365_length (H : history) : length (keep_last_365 H).1 ≤ 365.
Proof.
  destruct H as [dates values]; simpl. case_decide; simpl; [|lia].
  rewrite length_last_n. lia.
Qed.

Lemma keep_last_365_parallel (H : history) : parallel H → parallel (keep_last_365 H).
Proof.
  destruct H as [dates values]. unfold parallel; simpl. intros Heq.
  case_decide; simpl; [|done]. rewrite !length_last_n. lia.
Qed.

Lemma add_today_None (H : history) today : add_today H today None = Ok H.
Proof. by destruct H. Qed.

Lemma add_today_absent (H : history) today v :
  today ∉ H.1 → add_today H today (Some v) = Ok (H.1 ++ [today], H.2 ++ [v]).
Proof. destruct H as [dates values]; simpl. intros Hnot. by rewrite decide_True. Qed.

Lemma add_today_present (H : history) today v i :
  H.1 !! i = Some today → (∀ j, j < i → H.1 !! j ≠ Some today) →
  i < length H.2 →
  add_today H today (Some v) = Ok (H.1, <[i:=v]> H.2).
Proof.
  destruct H as [dates values]; simpl. intros Hi Hmin Hlen.
  rewrite decide_False by (intros Hnot; apply Hnot; by eapply list_elem_of_lookup_2).
  rewrite (index_at dates today i Hi Hmin); simpl.
  by rewrite setitem_Ok.
Qed.

(** With parallel arrays every merge returns, and the arrays stay parallel. *)
Lemma add_today_parallel (H : history) today p :
  parallel H → ∃ H', add_today H today p = Ok H' ∧ parallel H'.
Proof.
  intros Hpar. destruct p as [v|]; [|by exists H; rewrite add_today_None].
  destruct (decide (today ∈ H.1)) as [Hin|Hnot].
  - destruct (index_first H.1 today Hin) as (i & _ & Hi & Hmin).
    assert (i < length H.2) as Hlen.
    { rewrite <- Hpar. by eapply lookup_lt_Some. }
    exists (H.1, <[i:=v]> H.2). split; [by apply add_today_present|].
    unfold parallel; simpl. by rewrite length_insert.
  - exists (H.1 ++ [today], H.2 ++ [v]). split; [by apply add_today_absent|].
    unfold parallel in *; simpl. rewrite !length_app; simpl. lia.
Qed.

Lemma update_premium_history_parallel existing_data today p :
  parallel (starting_history existing_data) →
  ∃ H', update_premium_history existing_data today p = Ok H'
        ∧ parallel H' ∧ length H'.1 ≤ 365.
Proof.
  intros Hpar. unfold update_premium_history.
  destruct (add_today_parallel _ today p Hpar) as (H1 & -> & Hpar1); simpl.
  exists (keep_last_365 H1). split_and!; [done|..].
  - by apply keep_last_365_parallel.
  - apply keep_last_365_length.
Qed.

(** The slice of a list that ends in [x] still ends in [x]. *)
Lemma last_last_n_snoc {A} n (l : list A) x :
  0 < n → last (last_n n (l ++ [x])) = Some x.
Proof.
  intros Hn. unfold last_n. rewrite length_app; simpl.
  rewrite drop_app_le by lia. apply last_snoc.
Qed.

(** ** New day *)

(** C1: for a valid prior history [H] (parallel arrays, unique dates) and a
    new point [(d, v)] whose day is not in [H], the merge returns a history
    of length [min (len H + 1) 365] that ends in [(d, v)]; when nothing is
    cut off it is [H] with [(d, v)] appended. *)
Theorem merge_new_day (H : history) (d : date) (v : float) :
  parallel H → NoDup H.1 → d ∉ H.1 →
  ∃ dates values,
    update_premium_history (Some (saved H)) d (Some v) = Ok (dates, values)
    ∧ length dates = (length H.1 + 1) `min` 365
    ∧ length values = (length H.1 + 1) `min` 365
    ∧ last dates = Some d ∧ last values = Some v
    ∧ (length H.1 + 1 ≤ 365 → dates = H.1 ++ [d] ∧ values = H.2 ++ [v]).
Proof.
  intros Hpar _ Hnot. unfold update_premium_history.
  rewrite starting_history_saved, add_today_absent by done; simpl.
  destruct H as [ds vs]; unfold parallel in Hpar; simpl in *.
  case_decide as Hlong.
  - eexists _, _. split; [done|]. rewrite !length_last_n, !length_app; simpl.
    rewrite length_app in Hlong; simpl in Hlong.
    split_and!; [lia | lia | apply last_last_n_snoc; lia | apply last_last_n_snoc; lia | lia].
  - eexists _, _. split; [done|]. rewrite !length_app; simpl.
    rewrite length_app in Hlong; simpl in Hlong.
    split_and!; [lia | lia | apply last_snoc | apply last_snoc | done].
Qed.

Lemma merge_new_day_witness :
  ∃ dates values,
    update_premium_history (Some (saved (["2024-01-01"], [0.5%float])))
      "2024-01-02" (Some 1%float) = Ok (dates, values)
    ∧ length dates = 2 `min` 365
    ∧ length values = 2 `min` 365
    ∧ last dates = Some "2024-01-02" ∧ last values = Some 1%float
    ∧ (2 ≤ 365 → dates = ["2024-01-01"; "2024-01-02"]
                 ∧ values = [0.5%float; 1%float]).
Proof.
  apply (merge_new_day (["2024-01-01"], [0.5%float]) "2024-01-02" 1%float).
  - reflexivity.
  - decide_by_evaluation.
  - decide_by_evaluation.
Defined.

(** ** Same-day re-run *)

(** C2, as stated, fails on a history longer than the cap: all 366 days of
    2024 are on file, the run of 31 December is repeated, and the merge
    returns 365 entries, not 366. *)
Lemma merge_same_day_over_cap :
  parallel history_2024
  ∧ NoDup history_2024.1
  ∧ "2024-12-31" ∈ history_2024.1
  ∧ length history_2024.1 = 366
  ∧ update_premium_history (Some (saved history_2024)) "2024-12-31"
      (Some 1%float)
    = Ok (drop 1 year_2024, replicate 364 0.5%float ++ [1%float])
  ∧ ¬ ∃ dates values,
        update_premium_history (Some (saved history_2024)) "2024-12-31"
          (Some 1%float) = Ok (dates, values)
        ∧ length dates = length history_2024.1.
Proof.
  assert (update_premium_history (Some (saved history_2024)) "2024-12-31"
            (Some 1%float)
          = Ok (drop 1 year_2024, replicate 364 0.5%float ++ [1%float]))
    as Hrun by (vm_compute; reflexivity).
  split_and!.
  - reflexivity.
  - decide_by_evaluation.
  - decide_by_evaluation.
  - reflexivity.
  - exact Hrun.
  - intros (dates & values & Heq & Hlen).
    rewrite Hrun in Heq. injection Heq as <- _.
    vm_compute in Hlen. discriminate.
Qed.

(** C2, amended: for a prior history [H] of parallel arrays with at most
    365 entries and a day [d] already in it, the merge returns the same
    dates and a value array of the same length, in which the value at
    [d]'s (first) position is [v] and every other value is as before. *)
Theorem merge_same_day (H : history) (d : date) (v : float) :
  parallel H → length H.1 ≤ 365 → d ∈ H.1 →
  ∃ i values,
    update_premium_history (Some (saved H)) d (Some v) = Ok (H.1, values)
    ∧ length values = length H.2
    ∧ H.1 !! i = Some d
    ∧ (d ∉ take i H.1)
    ∧ values !! i = Some v
    ∧ ∀ j, j ≠ i → values !! j = H.2 !! j.
Proof.
  intros Hpar Hcap Hin.
  destruct (index_first H.1 d Hin) as (i & _ & Hi & Hmin).
  assert (i < length H.2) as Hlen.
  { rewrite <- Hpar. by eapply lookup_lt_Some. }
  exists i, (<[i:=v]> H.2).
  split_and!; [|by rewrite length_insert|done|by apply not_before_take|..].
  - unfold update_premium_history.
    rewrite starting_history_saved, (add_today_present H d v i) by done.
    unfold bind. by rewrite (keep_last_365_short (H.1, <[i:=v]> H.2)).
  - by apply list_lookup_insert_eq.
  - intros j Hj. by apply list_lookup_insert_ne.
Qed.

Lemma merge_same_day_witness :
  ∃ i values,
    update_premium_history (Some (saved (["2024-01-01"], [0.5%float])))
      "2024-01-01" (Some 0%float) = Ok (["2024-01-01"], values)
    ∧ length values = 1
    ∧ ["2024-01-01"] !! i = Some "2024-01-01"
    ∧ ("2024-01-01" ∉ take i ["2024-01-01"])
    ∧ values !! i = Some 0%float
    ∧ ∀ j, j ≠ i → values !! j = [0.5%float] !! j.
Proof.
  apply (merge_same_day (["2024-01-01"], [0.5%float]) "2024-01-01" 0%float).
  - reflexivity.
  - simpl. lia.
  - decide_by_evaluation.
Defined.

(** Appending and slicing: the slice of a list with one more element. *)
Lemma last_n_snoc {A} n (l : list A) x :
  last_n (S n) (l ++ [x]) = last_n n l ++ [x].
Proof.
  unfold last_n. rewrite length_app; simpl.
  rewrite drop_app_le by lia. f_equal. f_equal. lia.
Qed.

Lemma keep_last_365_snoc (H : history) d v :
  parallel H → length H.1 ≤ 365 →
  keep_last_365 (H.1 ++ [d], H.2 ++ [v])
  = (last_n 364 H.1 ++ [d], last_n 364 H.2 ++ [v]).
Proof.
  destruct H as [ds vs]. unfold parallel; simpl. intros Hpar Hcap.
  rewrite length_app; simpl. case_decide.
  - by rewrite !last_n_snoc.
  - by rewrite !last_n_short by lia.
Qed.

(** X2: repeating the run of a day with the same premium changes nothing,
    as long as the history on file has parallel arrays within the cap:
    the second merge returns the history the first one returned. *)
Lemma merge_twice (H H1 : history) (d : date) (v : float) :
  parallel H → length H.1 ≤ 365 →
  update_premium_history (Some (saved H)) d (Some v) = Ok H1 →
  update_premium_history (Some (saved H1)) d (Some v) = Ok H1.
Proof.
  intros Hpar Hcap Hrun.
  assert (parallel H1 ∧ length H1.1 ≤ 365) as [Hpar1 Hcap1].
  { destruct (update_premium_history_parallel (Some (saved H)) d (Some v))
      as (H1' & Hrun' & ? & ?); [by rewrite starting_history_saved|].
    rewrite Hrun in Hrun'. by simplify_eq. }
  assert (∃ i, H1.1 !! i = Some d ∧ (d ∉ take i H1.1) ∧ H1.2 !! i = Some v)
    as (i & Hi & Hfirst & Hv).
  { unfold update_premium_history in Hrun.
    rewrite starting_history_saved in Hrun.
    destruct (decide (d ∈ H.1)) as [Hin|Hnot].
    - destruct (index_first H.1 d Hin) as (i & _ & Hi & Hmin).
      assert (i < length H.2) as Hlen.
      { rewrite <- Hpar. by eapply lookup_lt_Some. }
      rewrite (add_today_present H d v i) in Hrun by done.
      unfold bind in Hrun.
      rewrite (keep_last_365_short (H.1, <[i:=v]> H.2)) in Hrun by done.
      simplify_eq; simpl.
      exists i. split_and!; [done | by apply not_before_take |].
      by apply list_lookup_insert_eq.
    - rewrite add_today_absent in Hrun by done. unfold bind in Hrun.
      rewrite keep_last_365_snoc in Hrun by done. simplify_eq; simpl.
      exists (length (last_n 364 H.1)). split_and!.
      + by rewrite list_lookup_middle.
      + rewrite take_app_length. intros Hin. apply Hnot.
        by apply (subseteq_drop (length H.1 - 364) H.1).
      + rewrite list_lookup_middle; [done|].
        rewrite !length_last_n. by rewrite Hpar. }
  unfold update_premium_history.
  rewrite starting_history_saved, (add_today_present H1 d v i);
    [|done|by apply not_before_take|].
  - unfold bind. rewrite list_insert_id by done.
    rewrite keep_last_365_short by done. by destruct H1.
  - rewrite <- Hpar1. by eapply lookup_lt_Some.
Qed.

Lemma merge_twice_witness :
  update_premium_history
    (Some (saved (["2024-01-01"; "2024-01-02"], [0.5%float; 1%float])))
    "2024-01-02" (Some 1%float)
  = Ok (["2024-01-01"; "2024-01-02"], [0.5%float; 1%float]).
Proof.
  apply (merge_twice (["2024-01-01"], [0.5%float])
           (["2024-01-01"; "2024-01-02"], [0.5%float; 1%float])
           "2024-01-02" 1%float).
  - reflexivity.
  - simpl. lia.
  - vm_compute. reflexivity.
Defined.

(** ** Skipped day *)

(** C3, as stated, fails on a history longer than the cap: with the 366
    days of 2024 on file and no premium for the day, the merge returns the
    last 365 entries, not the history it was given. *)
Lemma merge_None_over_cap :
  update_premium_history (Some (saved history_2024)) "2025-01-01" None
    = Ok (drop 1 year_2024, replicate 365 0.5%float)
  ∧ update_premium_history (Some (saved history_2024)) "2025-01-01" None
    ≠ Ok history_2024.
Proof.
  assert (update_premium_history (Some (saved history_2024)) "2025-01-01" None
          = Ok (drop 1 year_2024, replicate 365 0.5%float)) as Hrun
    by (vm_compute; reflexivity).
  split; [done|]. rewrite Hrun. intros Heq.
  apply (f_equal (λ r, match r with Ok h => length h.1 | Raise _ => 0 end)) in Heq.
  vm_compute in Heq. discriminate.
Qed.

(** C3, amended: for a prior history [H] with at most 365 dates, merging a
    day without premium returns [H] as it was. *)
Theorem merge_None (H : history) (d : date) :
  length H.1 ≤ 365 →
  update_premium_history (Some (saved H)) d None = Ok H.
Proof.
  intros Hcap. unfold update_premium_history.
  rewrite starting_history_saved, add_today_None; simpl.
  by rewrite keep_last_365_short.
Qed.

Lemma merge_None_witness :
  update_premium_history (Some (saved (["2024-01-01"], [0.5%float])))
    "2024-01-02" None = Ok (["2024-01-01"], [0.5%float]).
Proof.
  apply (merge_None (["2024-01-01"], [0.5%float]) "2024-01-02").
  simpl. lia.
Defined.

(** ** The cap over repeated runs *)

Lemma run_once_parallel existing_data op :
  parallel (starting_history existing_data) →
  ∃ H', run_once existing_data op = Ok (Some (saved H'))
        ∧ parallel H' ∧ length H'.1 ≤ 365.
Proof.
  intros Hpar. unfold run_once.
  destruct (update_premium_history_parallel existing_data op.1 op.2 Hpar)
    as (H' & -> & Hpar' & Hcap).
  by exists H'.
Qed.

Lemma run_many_capped ops : ∀ H : history,
  parallel H → length H.1 ≤ 365 →
  ∃ H', run_many (Some (saved H)) ops = Ok (Some (saved H'))
        ∧ parallel H' ∧ length H'.1 ≤ 365.
Proof.
  induction ops as [|op ops IH]; intros H Hpar Hcap.
  - by exists H.
  - simpl.
    destruct (run_once_parallel (Some (saved H)) op) as (H1 & -> & Hpar1 & Hcap1).
    { by rewrite starting_history_saved. }
    simpl. by apply IH.
Qed.

(** What the cut of lines 148-150 keeps, for parallel arrays. *)
Lemma keep_last_365_split (pre : history) :
  parallel pre → 365 < length pre.1 →
  ∃ old_dates old_values dates values,
    keep_last_365 pre = (dates, values)
    ∧ pre = (old_dates ++ dates, old_values ++ values)
    ∧ length old_dates = length old_values
    ∧ length dates = 365 ∧ length values = 365.
Proof.
  destruct pre as [ds vs]. unfold parallel; simpl. intros Hpar Hlong.
  destruct (last_n_split 365 ds) as (old_dates & Hds & Hold_d).
  destruct (last_n_split 365 vs) as (old_values & Hvs & Hold_v).
  exists old_dates, old_values, (last_n 365 ds), (last_n 365 vs).
  rewrite decide_True by done.
  split_and!; [done | congruence | lia | rewrite length_last_n; lia..].
Qed.

(** Whatever the prior document, a run that returns has saved a history
    whose date array is within the cap. *)
Lemma run_once_bounded existing_data op final :
  run_once existing_data op = Ok final →
  ∃ H', final = Some (saved H') ∧ length H'.1 ≤ 365.
Proof.
  unfold run_once, update_premium_history.
  destruct (add_today _ _ _) as [h|e]; simpl; intros Hrun; [|done].
  simplify_eq. exists (keep_last_365 h). split; [done|].
  apply keep_last_365_length.
Qed.

Lemma run_many_bounded ops : ∀ existing_data final,
  ops ≠ [] → run_many existing_data ops = Ok final →
  ∃ H', final = Some (saved H') ∧ length H'.1 ≤ 365.
Proof.
  induction ops as [|op ops IH]; intros existing_data final Hne; [done|].
  simpl. destruct (run_once existing_data op) as [next|e] eqn:Hstep; [|done].
  simpl. destruct ops as [|op' ops].
  - simpl. intros ?; simplify_eq. by eapply run_once_bounded.
  - by apply IH.
Qed.

(** C4: whatever the starting document and the non-empty sequence of
    merges (any days, any premiums, also missing ones), a run that comes
    to its end leaves a history of at most 365 dates. When the starting
    arrays are parallel every such run does come to its end, with both
    arrays parallel and within the cap, and each merge that goes over the
    cap returns the last 365 entries of the merged history, in their
    order, the oldest ones being dropped. *)
Theorem history_cap (existing_data : option document) :
  (∀ (ops : list merge_op) final,
     ops ≠ [] → run_many existing_data ops = Ok final →
     ∃ H', final = Some (saved H') ∧ length H'.1 ≤ 365)
  ∧ (parallel (starting_history existing_data) →
     (∀ ops : list merge_op, ops ≠ [] →
        ∃ H', run_many existing_data ops = Ok (Some (saved H'))
              ∧ parallel H' ∧ length H'.1 ≤ 365 ∧ length H'.2 ≤ 365)
     ∧ (∀ today today_premium, ∃ pre,
          add_today (starting_history existing_data) today today_premium
            = Ok pre
          ∧ (length pre.1 ≤ 365 →
               update_premium_history existing_data today today_premium
                 = Ok pre)
          ∧ (365 < length pre.1 →
               ∃ old_dates old_values dates values,
                 update_premium_history existing_data today today_premium
                   = Ok (dates, values)
                 ∧ pre = (old_dates ++ dates, old_values ++ values)
                 ∧ length old_dates = length old_values
                 ∧ length dates = 365 ∧ length values = 365))).
Proof.
  split; [intros ops final; apply run_many_bounded|].
  intros Hpar. split.
  - intros [|op ops] Hne; [done|]. simpl.
    destruct (run_once_parallel existing_data op Hpar) as (H1 & -> & Hpar1 & Hcap1).
    simpl. destruct (run_many_capped ops H1 Hpar1 Hcap1) as (H' & -> & Hpar' & Hcap').
    exists H'. split_and!; [done..|]. by rewrite <- Hpar'.
  - intros today p.
    destruct (add_today_parallel _ today p Hpar) as (pre & Hadd & Hpre).
    exists pre. unfold update_premium_history. rewrite Hadd; simpl.
    split_and!; [done|..].
    + intros Hshort. by rewrite keep_last_365_short.
    + intros Hlong.
      destruct (keep_last_365_split pre Hpre Hlong)
        as (od & ov & ds & vs & -> & Hsplit).
      by exists od, ov, ds, vs.
Qed.

Lemma history_cap_witness :
  (∀ ops : list merge_op, ops ≠ [] →
     ∃ H', run_many (Some (saved history_2024)) ops = Ok (Some (saved H'))
           ∧ parallel H' ∧ length H'.1 ≤ 365 ∧ length H'.2 ≤ 365)
  ∧ (∀ today today_premium, ∃ pre,
       add_today (starting_history (Some (saved history_2024)))
         today today_premium = Ok pre
       ∧ (length pre.1 ≤ 365 →
            update_premium_history (Some (saved history_2024))
              today today_premium = Ok pre)
       ∧ (365 < length pre.1 →
            ∃ old_dates old_values dates values,
              update_premium_history (Some (saved history_2024))
                today today_premium = Ok (dates, values)
              ∧ pre = (old_dates ++ dates, old_values ++ values)
              ∧ length old_dates = length old_values
              ∧ length dates = 365 ∧ length values = 365)).
Proof.
  apply (proj2 (history_cap (Some (saved history_2024)))).
  vm_compute. reflexivity.
Defined.

(** ** The invariant of the persisted history *)

#[local] Instance date_lt_strict : StrictOrder date_lt.
Proof. unfold date_lt. apply _. Qed.

(** On dates, sorted pairwise and sorted between neighbours are the same. *)
Lemma increasing_neighbours (dates : list date) :
  increasing dates ↔ Sorted date_lt dates.
Proof.
  split; [apply StronglySorted_Sorted | apply Sorted_StronglySorted, _].
Qed.

Lemma increasing_NoDup (dates : list date) : increasing dates → NoDup dates.
Proof.
  induction 1 as [|d dates Hsorted IH Hall]; constructor; [|done].
  intros Hin. rewrite Forall_forall in Hall.
  by apply (irreflexivity date_lt d), Hall.
Qed.

Lemma increasing_drop n (dates : list date) :
  increasing dates → increasing (drop n dates).
Proof.
  intros Hinc. rewrite <- (take_drop n dates) in Hinc.
  by apply StronglySorted_app_1_r in Hinc.
Qed.

(** A new day that is later than none of the days on file goes last. *)
Lemma increasing_snoc (dates : list date) today :
  increasing dates → Forall (λ d, date_le d today) dates → today ∉ dates →
  increasing (dates ++ [today]).
Proof.
  intros Hinc Hle Hnot. apply StronglySorted_app_2; [|done|repeat constructor].
  intros d d' Hd ->%list_elem_of_singleton.
  rewrite Forall_forall in Hle. apply strict_spec_alt.
  split; [by apply Hle|]. by intros ->.
Qed.

Lemma keep_last_365_dates (H : history) :
  ∃ n, (keep_last_365 H).1 = drop n H.1.
Proof.
  destruct H as [dates values]; simpl. case_decide; simpl.
  - by eexists.
  - by exists 0.
Qed.

(** C5: the merge preserves the invariant of a premium history. From
    parallel arrays whose dates are strictly increasing, unique and no
    later than today, it returns parallel arrays of at most 365 entries
    whose dates are again strictly increasing, unique and no later than
    today. *)
Theorem merge_preserves_invariant (H : history) (today : date)
    (today_premium : option float) :
  parallel H → increasing H.1 → NoDup H.1 →
  Forall (λ d, date_le d today) H.1 →
  ∃ H', update_premium_history (Some (saved H)) today today_premium = Ok H'
        ∧ parallel H'
        ∧ increasing H'.1
        ∧ NoDup H'.1
        ∧ length H'.1 ≤ 365
        ∧ Forall (λ d, date_le d today) H'.1.
Proof.
  intros Hpar Hinc _ Hle.
  assert (∃ pre, add_today H today today_premium = Ok pre
                 ∧ parallel pre ∧ increasing pre.1
                 ∧ Forall (λ d, date_le d today) pre.1)
    as (pre & Hadd & Hpar' & Hinc' & Hle').
  { destruct today_premium as [v|]; [|by exists H; rewrite add_today_None].
    destruct (decide (today ∈ H.1)) as [Hin|Hnot].
    - (* same day: the dates are untouched *)
      destruct (index_first H.1 today Hin) as (i & _ & Hi & Hmin).
      exists (H.1, <[i:=v]> H.2).
      split_and!; [|by unfold parallel; simpl; rewrite length_insert|done..].
      apply add_today_present; [done..|].
      rewrite <- Hpar. by eapply lookup_lt_Some.
    - (* new day: it is later than every day on file *)
      exists (H.1 ++ [today], H.2 ++ [v]). split_and!; simpl.
      + by apply add_today_absent.
      + unfold parallel in *; simpl. rewrite !length_app; simpl. lia.
      + by apply increasing_snoc.
      + apply Forall_app_2; [done|]. by repeat constructor. }
  exists (keep_last_365 pre). unfold update_premium_history.
  rewrite starting_history_saved, Hadd; simpl.
  destruct (keep_last_365_dates pre) as [n Hdrop].
  assert (increasing (keep_last_365 pre).1) as Hinc''.
  { rewrite Hdrop. by apply increasing_drop. }
  split_and!; [done | by apply keep_last_365_parallel | done
              | by apply increasing_NoDup | apply keep_last_365_length |].
  rewrite Hdrop. by apply Forall_drop.
Qed.

Lemma merge_preserves_invariant_witness :
  ∃ H', update_premium_history
          (Some (saved (["2024-01-01"; "2024-01-02"], [0.5%float; 1%float])))
          "2024-01-03" (Some 2%float) = Ok H'
        ∧ parallel H'
        ∧ increasing H'.1
        ∧ NoDup H'.1
        ∧ length H'.1 ≤ 365
        ∧ Forall (λ d, date_le d "2024-01-03") H'.1.
Proof.
  apply (merge_preserves_invariant
           (["2024-01-01"; "2024-01-02"], [0.5%float; 1%float])
           "2024-01-03" (Some 2%float)).
  - reflexivity.
  - unfold increasing, date_lt, strict. decide_by_evaluation.
  - decide_by_evaluation.
  - unfold date_le. decide_by_evaluation.
Defined.

(** ** Starting fresh *)

(** C8: when there is no prior document, or the document lacks the
    [premium_dates] key or the [premium_index] key, the merge starts from
    the empty history, so merging a premium [v] on day [d] returns the
    one-point history [([d], [v])]. *)
Theorem merge_without_prior (existing_data : option document)
    (d : date) (v : float) :
  (existing_data = None
   ∨ ∃ doc, existing_data = Some doc
            ∧ (premium_dates doc = None ∨ premium_index doc = None)) →
  starting_history existing_data = ([], [])
  ∧ update_premium_history existing_data d (Some v) = Ok ([d], [v]).
Proof.
  intros Hprior.
  assert (starting_history existing_data = ([], [])) as Hstart.
  { destruct Hprior as [->|(doc & -> & Hkey)]; [done|]. simpl.
    destruct Hkey as [->| ->]; [done|]. by destruct (premium_dates doc). }
  split; [done|]. unfold update_premium_history. rewrite Hstart.
  rewrite add_today_absent by apply not_elem_of_nil. done.
Qed.

Lemma merge_without_prior_witness :
  starting_history (Some (Document (Some ["2024-01-01"]) None)) = ([], [])
  ∧ update_premium_history (Some (Document (Some ["2024-01-01"]) None))
      "2024-01-02" (Some 1%float) = Ok (["2024-01-02"], [1%float]).
Proof.
  apply (merge_without_prior (Some (Document (Some ["2024-01-01"]) None))
           "2024-01-02" 1%float).
  right. exists (Document (Some ["2024-01-01"]) None).
  split; [reflexivity | right; reflexivity].
Defined.

(** ** The cap without a premium *)

(** C9: the cut to 365 entries is applied also when today's premium is
    missing. For a prior history whose arrays are longer than 365 entries
    the merge with [None] returns the last 365 entries of each array, the
    older ones being dropped, and not the history it was given. *)
Theorem cap_without_premium (H : history) (d : date) :
  365 < length H.1 → 365 < length H.2 →
  ∃ old_dates old_values dates values,
    update_premium_history (Some (saved H)) d None = Ok (dates, values)
    ∧ H = (old_dates ++ dates, old_values ++ values)
    ∧ old_dates ≠ [] ∧ old_values ≠ []
    ∧ length dates = 365 ∧ length values = 365
    ∧ update_premium_history (Some (saved H)) d None ≠ Ok H.
Proof.
  intros Hdates Hvalues. unfold update_premium_history.
  rewrite starting_history_saved, add_today_None; simpl.
  rewrite keep_last_365_long by done.
  destruct H as [ds vs]; simpl in *.
  destruct (last_n_split 365 ds) as (old_dates & Hds & Hold_d).
  destruct (last_n_split 365 vs) as (old_values & Hvs & Hold_v).
  exists old_dates, old_values, (last_n 365 ds), (last_n 365 vs).
  split_and!; [done | congruence | | | rewrite length_last_n; lia.. |].
  - intros ->. simpl in Hold_d. lia.
  - intros ->. simpl in Hold_v. lia.
  - intros Heq. simplify_eq.
    assert (length (last_n 365 ds) = length ds) as Hlen by congruence.
    rewrite length_last_n in Hlen. lia.
Qed.

Lemma cap_without_premium_witness :
  ∃ old_dates old_values dates values,
    update_premium_history (Some (saved history_2024)) "2025-01-01" None
      = Ok (dates, values)
    ∧ history_2024 = (old_dates ++ dates, old_values ++ values)
    ∧ old_dates ≠ [] ∧ old_values ≠ []
    ∧ length dates = 365 ∧ length values = 365
    ∧ update_premium_history (Some (saved history_2024)) "2025-01-01" None
      ≠ Ok history_2024.
Proof.
  apply (cap_without_premium history_2024 "2025-01-01").
  - vm_compute. lia.
  - vm_compute. lia.
Defined.

(** ** Duplicated dates on file *)

(** C10: when today's date is on file more than once, at position [i]
    first and again at a later position [j], the merge of a premium [v]
    overwrites the value at [i] only: the value array that goes into the
    final cut has [v] at [i] and the prior value everywhere else, at [j]
    too, and the dates are as they were. *)
Theorem merge_duplicated_today (H : history) (today : date) (v : float)
    (i j : nat) :
  parallel H →
  H.1 !! i = Some today → today ∉ take i H.1 →
  i < j → H.1 !! j = Some today →
  ∃ values,
    update_premium_history (Some (saved H)) today (Some v)
      = Ok (keep_last_365 (H.1, values))
    ∧ length values = length H.2
    ∧ values !! i = Some v
    ∧ values !! j = H.2 !! j
    ∧ ∀ k, k ≠ i → values !! k = H.2 !! k.
Proof.
  intros Hpar Hi Hfirst Hij Hj.
  assert (i < length H.2) as Hlen.
  { rewrite <- Hpar. by eapply lookup_lt_Some. }
  exists (<[i:=v]> H.2). split_and!.
  - unfold update_premium_history.
    rewrite starting_history_saved, (add_today_present H today v i); [done..| |done].
    by apply not_before_take.
  - by rewrite length_insert.
  - by apply list_lookup_insert_eq.
  - apply list_lookup_insert_ne. lia.
  - intros k Hk. by apply list_lookup_insert_ne.
Qed.

Lemma merge_duplicated_today_witness :
  ∃ values,
    update_premium_history
      (Some (saved (["2024-01-01"; "2024-01-02"; "2024-01-02"],
                    [0.5%float; 1%float; 2%float])))
      "2024-01-02" (Some 3%float)
      = Ok (keep_last_365
              (["2024-01-01"; "2024-01-02"; "2024-01-02"], values))
    ∧ length values = 3
    ∧ values !! 1 = Some 3%float
    ∧ values !! 2 = [0.5%float; 1%float; 2%float] !! 2
    ∧ ∀ k, k ≠ 1 → values !! k = [0.5%float; 1%float; 2%float] !! k.
Proof.
  apply (merge_duplicated_today
           (["2024-01-01"; "2024-01-02"; "2024-01-02"],
            [0.5%float; 1%float; 2%float]) "2024-01-02" 3%float 1 2).
  - reflexivity.
  - reflexivity.
  - decide_by_evaluation.
  - lia.
  - reflexivity.
Defined.

(** ** The premium calculator *)

(** [round_half_even n d] is an integer nearest to [n / d]. *)
Lemma round_half_even_nearest (n d : Z) :
  (0 < d)%Z → (2 * Z.abs (round_half_even n d * d - n) ≤ d)%Z.
Proof.
  intros Hd. unfold round_half_even.
  pose proof (Z.div_mod n d ltac:(lia)) as Hdiv.
  pose proof (Z.mod_pos_bound n d Hd) as Hmod.
  set (q := (n / d)%Z) in *. set (r := (n mod d)%Z) in *. clearbody q r.
  assert (q * d - n = - r)%Z as Hdown by lia.
  assert ((q + 1) * d - n = d - r)%Z as Hup by lia.
  destruct (Z.compare_spec (2 * r) d) as [Htie|Hlow|Hhigh].
  - destruct (Z.even q); [rewrite Hdown | rewrite Hup]; lia.
  - rewrite Hdown. lia.
  - rewrite Hup. lia.
Qed.

(** In a tie the even neighbour is taken. *)
Lemma round_half_even_tie (n d : Z) :
  (0 < d)%Z → (2 * (n mod d) = d)%Z → Z.even (round_half_even n d) = true.
Proof.
  intros Hd Htie. unfold round_half_even.
  rewrite Htie, Z.compare_refl.
  destruct (Z.even (n / d)) eqn:Heven; [done|].
  rewrite Z.even_add, Heven. done.
Qed.

(** What [round] returns on a finite non-zero float [(-1)^s * m * 2^e]:
    the binary64 read back from a decimal [k / 10^ndigits] whose numerator
    [k] is the float scaled by [10^ndigits] when that is an integer, and
    an integer within one half of it otherwise. *)
Lemma round_finite (x : float) (ndigits : nat) s m e :
  Prim2SF x = S754_finite s m e →
  ∃ k : Z,
    round x ndigits = decimal_to_float s k ndigits
    ∧ if (0 <=? e)%Z then k = (Z.pos m * 2 ^ e * 10 ^ Z.of_nat ndigits)%Z
      else (2 * Z.abs (k * 2 ^ (- e) - Z.pos m * 10 ^ Z.of_nat ndigits)
            ≤ 2 ^ (- e))%Z.
Proof.
  intros Hx. unfold round. rewrite Hx.
  destruct (0 <=? e)%Z eqn:He; eexists; (split; [reflexivity|]); [done|].
  apply round_half_even_nearest, Z.pow_pos_nonneg; lia.
Qed.

(** Zeros, infinities and NaN round to themselves. *)
Lemma round_not_finite (x : float) (ndigits : nat) :
  (∀ s m e, Prim2SF x ≠ S754_finite s m e) → round x ndigits = x.
Proof.
  intros Hx. unfold round.
  destruct (Prim2SF x) as [| | |s m e] eqn:Hsf; [done..|]. by destruct (Hx s m e).
Qed.

(** The floats that compare equal to 0 are the two zeros. *)
Lemma eqb_zero (b : float) :
  (b =? 0)%float = true ↔ b = 0%float ∨ b = (-0)%float.
Proof.
  split.
  - rewrite FloatAxioms.eqb_spec. intros Heq.
    rewrite <- (SF2Prim_Prim2SF b).
    destruct (Prim2SF b) as [[|]|[|]| |[|] m e]; vm_compute in Heq; try done;
      [by right | by left].
  - by intros [-> | ->].
Qed.

(** C6: [calculate_premium] returns [None] exactly when one of the two
    prices is [None] or the Binance price compares equal to 0; on every
    other input it returns a number. *)
Theorem calculate_premium_None (coinbase_price binance_price : option float) :
  (calculate_premium coinbase_price binance_price = None
   ↔ coinbase_price = None ∨ binance_price = None
     ∨ ∃ b, binance_price = Some b ∧ (b =? 0)%float = true)
  ∧ (calculate_premium coinbase_price binance_price ≠ None
     ↔ ∃ premium, calculate_premium coinbase_price binance_price = Some premium).
Proof.
  split.
  - destruct coinbase_price as [a|], binance_price as [b|]; simpl.
    + destruct (b =? 0)%float eqn:Hzero.
      * split; [intros _ | done]. right; right. by exists b.
      * split; [done|]. intros [?|[?|(b' & ? & Hb')]]; [done..|]. congruence.
    + split; [intros _ | done]. by right; left.
    + split; [intros _ | done]. by left.
    + split; [intros _ | done]. by left.
  - destruct (calculate_premium coinbase_price binance_price) as [premium|].
    + split; [by exists premium | done].
    + split; [done | by intros [premium ?]].
Qed.







(** ** The two pieces together, as [main] chains them (lines 173-176) *)

Example next_day_scenario :
  update_premium_history (Some (saved (["2024-01-01"], [0.5%float])))
    "2024-01-02" (calculate_premium (Some 50500%float) (Some 50000%float))
  = Ok (["2024-01-01"; "2024-01-02"], [0.5%float; 1%float]).
Proof. vm_compute. reflexivity. Qed.

Example same_day_scenario :
  update_premium_history (Some (saved (["2024-01-01"], [0.5%float])))
    "2024-01-01" (calculate_premium (Some 50000%float) (Some 50000%float))
  = Ok (["2024-01-01"], [0%float]).
Proof. vm_compute. reflexivity. Qed.

(** Arrays of different lengths are not detected when the document is
    loaded: the overwrite of line 144 then raises. *)
Example mismatched_arrays_raise :
  update_premium_history
    (Some (saved (["2024-01-01"; "2024-01-02"], [0.5%float])))
    "2024-01-02" (Some 1%float)
  = Raise IndexError.
Proof. vm_compute. reflexivity. Qed.

(** A run on each of the 366 days of 2024, starting without a document:
    the first day has been dropped at the end of the year. *)
Example year_of_runs :
  run_many None ((λ day, (day, Some 0.5%float)) <$> year_2024)
  = Ok (Some (saved (drop 1 year_2024, replicate 365 0.5%float))).
Proof. vm_compute. reflexivity. Qed.

(** * Further properties of the merge *)

(** ** When the merge raises *)

Lemma add_today_Raise (h : history) today p e :
  add_today h today p = Raise e
  ↔ e = IndexError
    ∧ ∃ v i, p = Some v ∧ h.1 !! i = Some today ∧ (today ∉ take i h.1)
             ∧ length h.2 ≤ i.
Proof.
  destruct h as [dates values]; simpl. destruct p as [v|]; simpl.
  2:{ split; [done|]. by intros (_ & v & i & ? & _). }
  destruct (decide (today ∉ dates)) as [Hnot|Hin%dec_stable].
  { split; [done|]. intros (_ & v' & i & _ & Hi & _).
    destruct Hnot. by eapply list_elem_of_lookup_2. }
  destruct (index_first dates today Hin) as (i & Hindex & Hi & Hmin).
  rewrite Hindex; simpl. unfold setitem. case_decide as Hlen; simpl.
  - split; [done|]. intros (_ & v' & i' & _ & Hi' & Hfirst' & Hshort).
    pose proof (proj2 (not_before_take dates today i') Hfirst') as Hmin'.
    rewrite (index_at dates today i' Hi' Hmin') in Hindex.
    simplify_eq. lia.
  - split.
    + intros ?; simplify_eq. split; [done|]. exists v, i.
      split_and!; [done..|by apply not_before_take|lia].
    + by intros (-> & _).
Qed.

Lemma update_premium_history_Raise existing_data today p e :
  update_premium_history existing_data today p = Raise e
  ↔ add_today (starting_history existing_data) today p = Raise e.
Proof.
  unfold update_premium_history.
  destruct (add_today _ _ _) as [h|e']; simpl; [by split|done].
Qed.

(** X1: on a well-typed document (no document, or lists of strings and of
    numbers under the keys that are there) the merge raises only
    [IndexError], and exactly in one situation: today's premium is there,
    today's date is on file, and the value array is too short to hold the
    position [i] where the date first occurs. *)
Theorem merge_raises_iff (existing_data : option document) (today : date)
    (today_premium : option float) (e : exn) :
  update_premium_history existing_data today today_premium = Raise e
  ↔ e = IndexError
    ∧ ∃ v i, today_premium = Some v
             ∧ (starting_history existing_data).1 !! i = Some today
             ∧ (today ∉ take i (starting_history existing_data).1)
             ∧ length (starting_history existing_data).2 ≤ i.
Proof. rewrite update_premium_history_Raise. apply add_today_Raise. Qed.

(** ** The rolling window *)

(** X3: on a full history, 365 parallel entries, a new day drops exactly
    the oldest entry of each array and goes last. *)
Theorem merge_full_history (H : history) (d : date) (v : float) :
  parallel H → length H.1 = 365 → d ∉ H.1 →
  update_premium_history (Some (saved H)) d (Some v)
  = Ok (drop 1 H.1 ++ [d], drop 1 H.2 ++ [v]).
Proof.
  intros Hpar Hfull Hnot. unfold update_premium_history.
  rewrite starting_history_saved, add_today_absent by done. unfold bind.
  rewrite keep_last_365_snoc by (done || lia).
  unfold last_n. rewrite <- Hpar, Hfull. done.
Qed.

Lemma merge_full_history_witness :
  update_premium_history
    (Some (saved (drop 1 year_2024, replicate 365 0.5%float)))
    "2025-01-01" (Some 1%float)
  = Ok (drop 1 (drop 1 year_2024) ++ ["2025-01-01"],
        drop 1 (replicate 365 0.5%float) ++ [1%float]).
Proof.
  apply (merge_full_history (drop 1 year_2024, replicate 365 0.5%float)
           "2025-01-01" 1%float).
  - reflexivity.
  - reflexivity.
  - decide_by_evaluation.
Defined.

(** ** What a merge can return *)

Lemma keep_last_365_suffix (h : history) :
  (keep_last_365 h).1 `suffix_of` h.1 ∧ (keep_last_365 h).2 `suffix_of` h.2.
Proof.
  destruct h as [dates values]; simpl. case_decide; simpl; [|done].
  split; apply suffix_drop.
Qed.

(** X4: whatever the prior document, the arrays a merge returns are the
    tail end of the prior arrays, with today's point appended when the day
    is new, or with one value overwritten when it is not: the merge never
    reorders the entries and never adds a date other than today. *)
Theorem merge_returns_suffix (existing_data : option document) (today : date)
    (today_premium : option float) (dates : list date) (values : list float) :
  update_premium_history existing_data today today_premium
    = Ok (dates, values) →
  (dates `suffix_of` (starting_history existing_data).1
   ∨ dates `suffix_of` (starting_history existing_data).1 ++ [today])
  ∧ (∀ d, d ∈ dates → d ∈ (starting_history existing_data).1 ∨ d = today)
  ∧ (∀ x, x ∈ values →
       x ∈ (starting_history existing_data).2 ∨ today_premium = Some x)
  ∧ (today_premium = None →
       values `suffix_of` (starting_history existing_data).2).
Proof.
  unfold update_premium_history.
  destruct (starting_history existing_data) as [ds vs].
  destruct (add_today (ds, vs) today today_premium) as [pre|e] eqn:Hadd;
    unfold bind; [|done].
  intros Hkeep. simplify_eq. simpl.
  destruct (keep_last_365_suffix pre) as [Hd Hv]. rewrite Hkeep in Hd, Hv.
  simpl in Hd, Hv. clear Hkeep.
  destruct today_premium as [v|]; simpl in Hadd.
  2:{ simplify_eq. split_and!; [by left| | |done].
      - intros d Hin. left. by eapply elem_of_suffix.
      - intros x Hin. left. by eapply elem_of_suffix. }
  destruct (decide (today ∉ ds)) as [Hnot|Hin].
  - simplify_eq; simpl in *. split_and!; [by right| | |done].
    + intros d Hin. eapply elem_of_suffix in Hin; [|done].
      apply elem_of_app in Hin as [?|?%list_elem_of_singleton]; auto.
    + intros x Hin. eapply elem_of_suffix in Hin; [|done].
      apply elem_of_app in Hin as [?|?%list_elem_of_singleton]; [auto|].
      right. by f_equal.
  - destruct (index ds today) as [i|] eqn:Hindex; simpl in Hadd; [|done].
    unfold setitem in Hadd. case_decide; simpl in Hadd; [|done].
    simplify_eq; simpl in *. split_and!; [by left| | |done].
    + intros d Hd'. left. by eapply elem_of_suffix.
    + intros x Hx. eapply elem_of_suffix in Hx; [|done].
      apply list_elem_of_lookup in Hx as [j Hj].
      destruct (decide (j = i)) as [->|Hne].
      * rewrite list_lookup_insert_eq in Hj by done. right. congruence.
      * rewrite list_lookup_insert_ne in Hj by done. left.
        by eapply list_elem_of_lookup_2.
Qed.

Lemma merge_returns_suffix_witness :
  (["2024-01-01"; "2024-01-02"] `suffix_of` ["2024-01-01"]
   ∨ ["2024-01-01"; "2024-01-02"] `suffix_of` ["2024-01-01"] ++ ["2024-01-02"])
  ∧ (∀ d, d ∈ ["2024-01-01"; "2024-01-02"] →
       d ∈ ["2024-01-01"] ∨ d = "2024-01-02")
  ∧ (∀ x, x ∈ [0.5%float; 1%float] →
       x ∈ [0.5%float] ∨ Some 1%float = Some x)
  ∧ (Some 1%float = None → [0.5%float; 1%float] `suffix_of` [0.5%float]).
Proof.
  apply (merge_returns_suffix (Some (saved (["2024-01-01"], [0.5%float])))
           "2024-01-02" (Some 1%float)
           ["2024-01-01"; "2024-01-02"] [0.5%float; 1%float]).
  vm_compute. reflexivity.
Defined.

(** * The run *)

(** ** The price arrays *)

Lemma sorted_Permutation (l : list string) : sorted l ≡ₚ l.
Proof. apply merge_sort_Permutation. Qed.

Lemma strictly_sorted_NoDup (l : list string) :
  StronglySorted String.le l → NoDup l → increasing l.
Proof.
  induction 1 as [|x l Hsorted IH Hall]; intros Hnodup; [constructor|].
  apply NoDup_cons in Hnodup as [Hx Hnodup].
  constructor; [by apply IH|].
  rewrite Forall_forall in Hall |- *. intros y Hy.
  apply strict_spec_alt. split; [by apply Hall|]. by intros ->.
Qed.

Lemma sorted_increasing (l : list string) : NoDup l → increasing (sorted l).
Proof.
  intros Hnodup. apply strictly_sorted_NoDup.
  - apply Sorted_StronglySorted; [apply _|]. apply Sorted_merge_sort, _.
  - by rewrite sorted_Permutation.
Qed.

(** Every sorted key is a key, so the lookups of line 181 find a price. *)
Lemma prices_of_sorted_keys (btc_prices : gmap date float) :
  ∃ prices,
    mapM (λ d, btc_prices !! d) (sorted (map_to_list btc_prices).*1)
      = Some prices
    ∧ Forall2 (λ d p, btc_prices !! d = Some p)
        (sorted (map_to_list btc_prices).*1) prices.
Proof.
  destruct (mapM_is_Some_2 (λ d, btc_prices !! d)
              (sorted (map_to_list btc_prices).*1)) as [prices Hprices].
  - apply Forall_forall. intros d Hd. rewrite sorted_Permutation in Hd.
    apply list_elem_of_fmap in Hd as ([d' p] & -> & Hin).
    apply elem_of_map_to_list in Hin. by exists p.
  - exists prices. split; [done|]. by apply mapM_Some_1.
Qed.

Lemma sorted_keys_nonempty (btc_prices : gmap date float) :
  size btc_prices ≠ 0 → sorted (map_to_list btc_prices).*1 ≠ [].
Proof.
  intros Hsize Hnil. apply Hsize.
  apply (f_equal length) in Hnil.
  by rewrite sorted_Permutation, length_fmap, length_map_to_list in Hnil.
Qed.

(** With a price series, the run comes down to the merge: the lookups of
    line 181 and the summary lines after the save never raise. *)
Lemma main_with_prices existing_data (btc_prices : gmap date float)
    coinbase_price binance_price today utcnow :
  size btc_prices ≠ 0 →
  ∃ prices,
    Forall2 (λ d p, btc_prices !! d = Some p)
      (sorted (map_to_list btc_prices).*1) prices
    ∧ main existing_data btc_prices coinbase_price binance_price today utcnow
      = match update_premium_history existing_data today
                (calculate_premium coinbase_price binance_price) with
        | Ok (premium_dates, premium_values) =>
            Outcome
              (Some (Output.Make (sorted (map_to_list btc_prices).*1) prices
                       premium_dates premium_values (utcnow +:+ "Z")))
              None
        | Raise e => Outcome None (Some (Exn e))
        end.
Proof.
  intros Hsize. unfold main. rewrite decide_False by done.
  destruct (prices_of_sorted_keys btc_prices) as (prices & -> & Hall).
  exists prices. split; [done|].
  destruct (update_premium_history _ _ _) as [[pd pv]|e]; [|done].
  pose proof (sorted_keys_nonempty btc_prices Hsize) as Hne.
  destruct (sorted (map_to_list btc_prices).*1) as [|d dates] eqn:Hdates;
    [done|].
  apply Forall2_cons_inv_l in Hall as (p & prices' & _ & _ & ->).
  simpl head.
  destruct (last (d :: dates)) eqn:Hlast_d; [|by apply last_None in Hlast_d].
  destruct (last (p :: prices')) eqn:Hlast_p; [|by apply last_None in Hlast_p].
  done.
Qed.

(** X5: the price arrays a run saves are parallel, the dates are strictly
    increasing, and they hold the price series exactly: a date and a price
    stand at the same position if and only if the series maps that date to
    that price. *)
Theorem main_saves_price_series (existing_data : option document)
    (btc_prices : gmap date float) (coinbase_price binance_price : option float)
    (today : date) (utcnow : string) (output : Output.t) :
  written (main existing_data btc_prices coinbase_price binance_price
             today utcnow) = Some output →
  length (Output.btc_prices output) = length (Output.dates output)
  ∧ increasing (Output.dates output)
  ∧ ∀ d p,
      (∃ i, Output.dates output !! i = Some d
            ∧ Output.btc_prices output !! i = Some p)
      ↔ btc_prices !! d = Some p.
Proof.
  intros Hwritten.
  destruct (decide (size btc_prices = 0)) as [Hempty|Hsize].
  { unfold main in Hwritten. by rewrite decide_True in Hwritten. }
  destruct (main_with_prices existing_data btc_prices coinbase_price
              binance_price today utcnow Hsize) as (prices & Hall & Hmain).
  rewrite Hmain in Hwritten.
  destruct (update_premium_history _ _ _) as [[pd pv]|e]; [|done].
  simpl in Hwritten. simplify_eq; simpl.
  split_and!.
  - symmetry. by eapply Forall2_length.
  - apply sorted_increasing, NoDup_fst_map_to_list.
  - intros d p. split.
    + intros (i & Hd & Hp).
      destruct (Forall2_lookup_l _ _ _ _ _ Hall Hd) as (p' & Hp' & Hlook).
      pose proof (eq_trans (eq_sym Hp') Hp) as Heq. by simplify_eq.
    + intros Hlook.
      assert (d ∈ sorted (map_to_list btc_prices).*1) as Hin.
      { rewrite sorted_Permutation. apply list_elem_of_fmap.
        exists (d, p). split; [done|]. by apply elem_of_map_to_list. }
      apply list_elem_of_lookup in Hin as [i Hi]. exists i. split; [done|].
      destruct (Forall2_lookup_l _ _ _ _ _ Hall Hi) as (p' & Hp' & Hlook').
      pose proof (eq_trans (eq_sym Hlook') Hlook) as Heq. by simplify_eq.
Qed.

Lemma main_saves_price_series_witness :
  length [7%float; 2.5%float] = length ["2024-01-01"; "2024-01-02"]
  ∧ increasing ["2024-01-01"; "2024-01-02"]
  ∧ ∀ d p,
      (∃ i, ["2024-01-01"; "2024-01-02"] !! i = Some d
            ∧ [7%float; 2.5%float] !! i = Some p)
      ↔ sample_prices !! d = Some p.
Proof.
  apply (main_saves_price_series None sample_prices (Some 105%float)
           (Some 100%float) "2024-01-02" "2024-01-02T09:00:00"
           (Output.Make ["2024-01-01"; "2024-01-02"] [7%float; 2.5%float]
              ["2024-01-02"] [5%float] "2024-01-02T09:00:00Z")).
  vm_compute. reflexivity.
Defined.

(** ** When the run raises, when it saves *)




(** ** The premium of the day *)

Lemma update_premium_history_start existing_data today p :
  update_premium_history existing_data today p
  = update_premium_history (Some (saved (starting_history existing_data)))
      today p.
Proof. unfold update_premium_history. by rewrite starting_history_saved. Qed.

(** After the merge of a premium, within the cap, today's date is on file
    and the value at its first position is that premium. *)
Lemma update_records_today (H H1 : history) (d : date) (v : float) :
  parallel H → length H.1 ≤ 365 →
  update_premium_history (Some (saved H)) d (Some v) = Ok H1 →
  ∃ i, H1.1 !! i = Some d ∧ (d ∉ take i H1.1) ∧ H1.2 !! i = Some v.
Proof.
  intros Hpar Hcap Hrun. unfold update_premium_history in Hrun.
  rewrite starting_history_saved in Hrun.
  destruct (decide (d ∈ H.1)) as [Hin|Hnot].
  - destruct (index_first H.1 d Hin) as (i & _ & Hi & Hmin).
    assert (i < length H.2) as Hlen.
    { rewrite <- Hpar. by eapply lookup_lt_Some. }
    rewrite (add_today_present H d v i) in Hrun by done.
    unfold bind in Hrun.
    rewrite (keep_last_365_short (H.1, <[i:=v]> H.2)) in Hrun by done.
    simplify_eq; simpl.
    exists i. split_and!; [done | by apply not_before_take |].
    by apply list_lookup_insert_eq.
  - rewrite add_today_absent in Hrun by done. unfold bind in Hrun.
    rewrite keep_last_365_snoc in Hrun by done. simplify_eq; simpl.
    exists (length (last_n 364 H.1)). split_and!.
    + by rewrite list_lookup_middle.
    + rewrite take_app_length. intros Hin. apply Hnot.
      by apply (subseteq_drop (length H.1 - 364) H.1).
    + rewrite list_lookup_middle; [done|].
      rewrite !length_last_n. by rewrite Hpar.
Qed.

(** X8: when a spot price is missing, or the Binance price compares equal
    to 0, a run with a price series still saves, and the premium history
    it saves is the one on file, as long as that one is within the cap. *)
Theorem main_without_spot_price (existing_data : option document)
    (btc_prices : gmap date float) (coinbase_price binance_price : option float)
    (today : date) (utcnow : string) :
  size btc_prices ≠ 0 →
  length (starting_history existing_data).1 ≤ 365 →
  (coinbase_price = None ∨ binance_price = None
   ∨ ∃ b, binance_price = Some b ∧ (b =? 0)%float = true) →
  ∃ output,
    main existing_data btc_prices coinbase_price binance_price today utcnow
      = Outcome (Some output) None
    ∧ (Output.premium_dates output, Output.premium_index output)
      = starting_history existing_data.
Proof.
  intros Hsize Hcap Hspot.
  assert (calculate_premium coinbase_price binance_price = None) as Hnone.
  { destruct Hspot as [->|[->|(b & -> & Hzero)]].
    - done.
    - by destruct coinbase_price.
    - destruct coinbase_price; simpl; [by rewrite Hzero|done]. }
  destruct (main_with_prices existing_data btc_prices coinbase_price
              binance_price today utcnow Hsize) as (prices & _ & ->).
  rewrite Hnone. unfold update_premium_history.
  rewrite add_today_None. unfold bind.
  rewrite keep_last_365_short by done.
  destruct (starting_history existing_data) as [ds vs]. by eexists.
Qed.

Lemma main_without_spot_price_witness :
  ∃ output,
    main (Some (saved (["2024-01-01"], [0.5%float]))) sample_prices
      (Some 105%float) None "2024-01-02" "2024-01-02T09:00:00"
      = Outcome (Some output) None
    ∧ (Output.premium_dates output, Output.premium_index output)
      = starting_history (Some (saved (["2024-01-01"], [0.5%float]))).
Proof.
  apply (main_without_spot_price (Some (saved (["2024-01-01"], [0.5%float])))
           sample_prices (Some 105%float) None "2024-01-02"
           "2024-01-02T09:00:00").
  - vm_compute. discriminate.
  - vm_compute. lia.
  - right. left. reflexivity.
Defined.

(** X9: with a price series, both spot prices, a Binance price that does
    not compare equal to 0 and a parallel history within the cap on file,
    the run saves a premium history that holds today's date, and the value
    at the first position of that date is the premium of the two prices. *)
Theorem main_records_premium (existing_data : option document)
    (btc_prices : gmap date float) (coinbase_price binance_price : float)
    (today : date) (utcnow : string) :
  size btc_prices ≠ 0 →
  parallel (starting_history existing_data) →
  length (starting_history existing_data).1 ≤ 365 →
  (binance_price =? 0)%float = false →
  ∃ output i,
    main existing_data btc_prices (Some coinbase_price) (Some binance_price)
      today utcnow = Outcome (Some output) None
    ∧ Output.premium_dates output !! i = Some today
    ∧ (today ∉ take i (Output.premium_dates output))
    ∧ Output.premium_index output !! i
      = Some (round ((coinbase_price - binance_price) / binance_price * 100)
                4).
Proof.
  intros Hsize Hpar Hcap Hzero.
  destruct (main_with_prices existing_data btc_prices (Some coinbase_price)
              (Some binance_price) today utcnow Hsize) as (prices & _ & ->).
  simpl calculate_premium. rewrite Hzero.
  destruct (update_premium_history_parallel existing_data today
              (Some (round ((coinbase_price - binance_price)
                            / binance_price * 100) 4)) Hpar)
    as ([pd pv] & Hrun & _). rewrite Hrun.
  rewrite update_premium_history_start in Hrun.
  destruct (update_records_today _ _ _ _ Hpar Hcap Hrun) as (i & Hi & Hfirst & Hv).
  eexists _, i. by split_and!.
Qed.

Lemma main_records_premium_witness :
  ∃ output i,
    main (Some (saved (["2024-01-01"], [0.5%float]))) sample_prices
      (Some 105%float) (Some 100%float) "2024-01-02" "2024-01-02T09:00:00"
      = Outcome (Some output) None
    ∧ Output.premium_dates output !! i = Some "2024-01-02"
    ∧ ("2024-01-02" ∉ take i (Output.premium_dates output))
    ∧ Output.premium_index output !! i
      = Some (round ((105 - 100) / 100 * 100) 4).
Proof.
  apply (main_records_premium (Some (saved (["2024-01-01"], [0.5%float])))
           sample_prices 105%float 100%float "2024-01-02"
           "2024-01-02T09:00:00").
  - vm_compute. discriminate.
  - reflexivity.
  - vm_compute. lia.
  - reflexivity.
Defined.

(** ** The invariant over the runs *)

Lemma valid_on_later t0 t1 (h : history) :
  date_le t0 t1 → valid_on t0 h → valid_on t1 h.
Proof.
  intros Hle (Hpar & Hinc & Hcap & Hall). split_and!; [done..|].
  eapply Forall_impl; [done|]. intros d Hd. unfold date_le in *. by etrans.
Qed.

Lemma update_premium_history_valid existing_data today p :
  valid_on today (starting_history existing_data) →
  ∃ H', update_premium_history existing_data today p = Ok H'
        ∧ valid_on today H'.
Proof.
  intros (Hpar & Hinc & Hcap & Hle). unfold update_premium_history.
  set (H := starting_history existing_data) in *.
  assert (∃ pre, add_today H today p = Ok pre
                 ∧ parallel pre ∧ increasing pre.1
                 ∧ Forall (λ d, date_le d today) pre.1)
    as (pre & -> & Hpar' & Hinc' & Hle').
  { destruct p as [v|]; [|by exists H; rewrite add_today_None].
    destruct (decide (today ∈ H.1)) as [Hin|Hnot].
    - destruct (index_first H.1 today Hin) as (i & _ & Hi & Hmin).
      exists (H.1, <[i:=v]> H.2).
      split_and!; [|by unfold parallel; simpl; rewrite length_insert|done..].
      apply add_today_present; [done..|].
      rewrite <- Hpar. by eapply lookup_lt_Some.
    - exists (H.1 ++ [today], H.2 ++ [v]). split_and!; simpl.
      + by apply add_today_absent.
      + unfold parallel in *; simpl. rewrite !length_app; simpl. lia.
      + by apply increasing_snoc.
      + apply Forall_app_2; [done|]. by repeat constructor. }
  exists (keep_last_365 pre). unfold bind.
  destruct (keep_last_365_dates pre) as [n Hdrop].
  split; [done|]. split_and!.
  - by apply keep_last_365_parallel.
  - rewrite Hdrop. by apply increasing_drop.
  - apply keep_last_365_length.
  - rewrite Hdrop. by apply Forall_drop.
Qed.

(** One run, on a day that is not before the days on file. *)
Lemma main_on_valid existing_data (i : run_input) :
  valid_on (run_today i) (starting_history existing_data) →
  valid_on (run_today i)
    (starting_history (data_file_after existing_data (main_on existing_data i))).
Proof.
  intros Hvalid. unfold main_on.
  destruct (decide (size (run_btc_prices i) = 0)) as [Hempty|Hsize].
  { unfold main. by rewrite decide_True. }
  destruct (main_with_prices existing_data (run_btc_prices i)
              (run_coinbase_price i) (run_binance_price i) (run_today i)
              (run_utcnow i) Hsize) as (prices & _ & ->).
  destruct (update_premium_history_valid existing_data (run_today i)
              (calculate_premium (run_coinbase_price i) (run_binance_price i))
              Hvalid) as ([pd pv] & -> & Hvalid').
  unfold data_file_after; simpl. done.
Qed.

Lemma runs_valid inputs : ∀ existing_data t0,
  valid_on t0 (starting_history existing_data) →
  Sorted date_le (t0 :: (run_today <$> inputs)) →
  ∃ t, last (t0 :: (run_today <$> inputs)) = Some t
       ∧ valid_on t
           (starting_history (data_file_after_runs existing_data inputs)).
Proof.
  induction inputs as [|i inputs IH]; intros existing_data t0 Hvalid Hdays.
  - by exists t0.
  - rewrite fmap_cons in Hdays |- *. rewrite last_cons_cons.
    apply Sorted_inv in Hdays as [Hdays Hfirst].
    apply HdRel_inv in Hfirst. simpl.
    apply IH; [|done].
    by apply main_on_valid, (valid_on_later t0).
Qed.

(** X10: the invariant of the premium history holds from run to run. When
    the history on file has parallel arrays of at most 365 entries with
    strictly increasing dates, none after day [t0], and the runs come on
    days in calendar order from [t0] on, then after any number of runs,
    whatever the fetches return, the history on file again has parallel
    arrays of at most 365 entries with strictly increasing dates, none
    after the day of the last run. *)
Theorem runs_keep_invariant (existing_data : option document)
    (inputs : list run_input) (t0 : date) :
  valid_on t0 (starting_history existing_data) →
  Sorted date_le (t0 :: (run_today <$> inputs)) →
  ∃ t, last (t0 :: (run_today <$> inputs)) = Some t
       ∧ valid_on t
           (starting_history (data_file_after_runs existing_data inputs)).
Proof. apply runs_valid. Qed.

Lemma runs_keep_invariant_witness :
  ∃ t,
    last ("2024-01-01"
          :: (run_today <$>
                [RunInput sample_prices (Some 105%float) (Some 100%float)
                   "2024-01-01" "2024-01-01T09:00:00";
                 RunInput sample_prices None (Some 100%float)
                   "2024-01-02" "2024-01-02T09:00:00";
                 RunInput ∅ (Some 95%float) (Some 100%float)
                   "2024-01-03" "2024-01-03T09:00:00"])) = Some t
    ∧ valid_on t
        (starting_history
           (data_file_after_runs None
              [RunInput sample_prices (Some 105%float) (Some 100%float)
                 "2024-01-01" "2024-01-01T09:00:00";
               RunInput sample_prices None (Some 100%float)
                 "2024-01-02" "2024-01-02T09:00:00";
               RunInput ∅ (Some 95%float) (Some 100%float)
                 "2024-01-03" "2024-01-03T09:00:00"])).
Proof.
  apply (runs_keep_invariant None
           [RunInput sample_prices (Some 105%float) (Some 100%float)
              "2024-01-01" "2024-01-01T09:00:00";
            RunInput sample_prices None (Some 100%float)
              "2024-01-02" "2024-01-02T09:00:00";
            RunInput ∅ (Some 95%float) (Some 100%float)
              "2024-01-03" "2024-01-03T09:00:00"] "2024-01-01").
  - split_and!; [reflexivity | constructor | simpl; lia | constructor].
  - unfold date_le. decide_by_evaluation.
Defined.

(** * The price feed *)

Section price_feed_properties.
Variable local_day : Z → option date.
Implicit Types (m : gmap date float) (items : list (Z * float)).

Lemma prices_loop_app m items1 items2 :
  prices_loop local_day m (items1 ++ items2)
  = prices_loop local_day m items1 ≫= λ m1, prices_loop local_day m1 items2.
Proof.
  revert m. induction items1 as [|item items1 IH]; intros m; simpl; [done|].
  destruct (local_day item.1); [apply IH | done].
Qed.

Lemma prices_loop_is_Some m items :
  Forall (λ item, is_Some (local_day item.1)) items →
  is_Some (prices_loop local_day m items).
Proof.
  intros Hall. revert m.
  induction Hall as [|item items [d Hd] _ IH]; intros m; simpl; [done|].
  rewrite Hd. apply IH.
Qed.

Lemma prices_loop_None m items :
  Exists (λ item, local_day item.1 = None) items →
  prices_loop local_day m items = None.
Proof.
  intros Hex. revert m.
  induction Hex as [item items Hd|item items _ IH]; intros m; simpl.
  - by rewrite Hd.
  - destruct (local_day item.1); [apply IH | done].
Qed.

(** The items of other days leave the entry of a day as it is. *)
Lemma prices_loop_other_days m m' items d :
  prices_loop local_day m items = Some m' →
  Forall (λ item, local_day item.1 ≠ Some d) items →
  m' !! d = m !! d.
Proof.
  intros Hloop Hall. revert m Hloop.
  induction Hall as [|item items Hd _ IH]; intros m; simpl.
  - by intros ?; simplify_eq.
  - destruct (local_day item.1) as [d'|] eqn:Hday; [|done].
    intros Hloop. rewrite (IH _ Hloop).
    apply lookup_insert_ne. by intros ->.
Qed.

(** The days in the dict are those on file before and those of the items. *)
Lemma prices_loop_days m m' items d :
  prices_loop local_day m items = Some m' →
  is_Some (m' !! d)
  ↔ is_Some (m !! d) ∨ Exists (λ item, local_day item.1 = Some d) items.
Proof.
  revert m. induction items as [|item items IH]; intros m; simpl.
  - intros ?; simplify_eq. rewrite Exists_nil.
    split; [by left | by intros [?|[]]].
  - destruct (local_day item.1) as [d'|] eqn:Hday; [|done].
    intros Hloop. rewrite (IH _ Hloop), Exists_cons.
    destruct (decide (d' = d)) as [->|Hne].
    + rewrite lookup_insert_eq.
      split; intros _; [by right; left | by left].
    + rewrite lookup_insert_ne by done.
      split; [intros [?|?]; auto | intros [?|[?|?]]; auto; congruence].
Qed.

Lemma prices_loop_size m m' items :
  prices_loop local_day m items = Some m' →
  size m ≤ size m' ≤ size m + length items.
Proof.
  revert m. induction items as [|item items IH]; intros m; simpl.
  - intros ?; simplify_eq. lia.
  - destruct (local_day item.1) as [d|] eqn:Hday; [|done].
    intros Hloop. apply IH in Hloop. rewrite map_size_insert in Hloop.
    destruct (m !! d); simpl in Hloop; lia.
Qed.

(** X11: when several items of the response fall on the same day, the
    last one in response order wins: the series maps the day to the price
    of that item, rounded to 2 digits. *)
Theorem fetch_last_item_wins (before after : list (Z * float))
    (timestamp : Z) (price : float) (d : date) :
  Forall (λ item, is_Some (local_day item.1)) (before ++ after) →
  local_day timestamp = Some d →
  Forall (λ item, local_day item.1 ≠ Some d) after →
  fetch_bitcoin_price local_day (Some (before ++ (timestamp, price) :: after))
    !! d = Some (round price 2).
Proof.
  intros [Hbefore Hafter]%Forall_app Hday Hlater. unfold fetch_bitcoin_price.
  rewrite prices_loop_app.
  destruct (prices_loop_is_Some ∅ before Hbefore) as [m1 ->]. simpl.
  rewrite Hday.
  destruct (prices_loop_is_Some (<[d:=round price 2]> m1) after Hafter)
    as [m2 Hloop].
  rewrite Hloop, (prices_loop_other_days _ _ _ _ Hloop Hlater).
  apply lookup_insert_eq.
Qed.

(** X12: when every timestamp of the response can be placed on a day, the
    days of the series are exactly the days of the items, so the series
    has at most as many entries as the response has items, and it is empty
    only when the response is. *)
Theorem fetch_days (items : list (Z * float)) :
  Forall (λ item, is_Some (local_day item.1)) items →
  (∀ d, is_Some (fetch_bitcoin_price local_day (Some items) !! d)
        ↔ Exists (λ item, local_day item.1 = Some d) items)
  ∧ size (fetch_bitcoin_price local_day (Some items)) ≤ length items
  ∧ (size (fetch_bitcoin_price local_day (Some items)) = 0 ↔ items = []).
Proof.
  intros Hall. unfold fetch_bitcoin_price.
  destruct (prices_loop_is_Some ∅ items Hall) as [m' Hloop]. rewrite Hloop.
  pose proof (prices_loop_size _ _ _ Hloop) as Hsize.
  rewrite map_size_empty in Hsize.
  assert (∀ d, is_Some (m' !! d)
               ↔ Exists (λ item, local_day item.1 = Some d) items) as Hdays.
  { intros d. rewrite (prices_loop_days _ _ _ d Hloop), lookup_empty.
    split; [|by right]. intros [[? ?]|?]; done. }
  split_and!; [done|lia|]. split.
  - intros Hempty. destruct items as [|item items]; [done|].
    apply Forall_cons in Hall as [[d Hd] _].
    destruct (map_size_ne_0_lookup_2 m' d); [|done].
    apply Hdays. by left.
  - intros ->. simpl in Hloop. simplify_eq. apply map_size_empty.
Qed.

(** X13: when the request fails, or comes back without items, or one of
    its timestamps cannot be placed on a day, the series is empty and the
    run stops there: nothing is written and nothing is raised, whatever
    the spot prices and the document on file. *)
Theorem main_without_prices (response : option (list (Z * float)))
    (existing_data : option document) (coinbase_price binance_price : option float)
    (today : date) (utcnow : string) :
  (response = None ∨ response = Some []
   ∨ ∃ items, response = Some items
              ∧ Exists (λ item, local_day item.1 = None) items) →
  fetch_bitcoin_price local_day response = ∅
  ∧ main existing_data (fetch_bitcoin_price local_day response)
      coinbase_price binance_price today utcnow = Outcome None None.
Proof.
  intros Hfail.
  assert (fetch_bitcoin_price local_day response = ∅) as ->.
  { destruct Hfail as [->|[->|(items & -> & Hex)]]; [done..|].
    unfold fetch_bitcoin_price. by rewrite prices_loop_None. }
  split; [done|]. unfold main. by rewrite map_size_empty, decide_True.
Qed.

End price_feed_properties.

Lemma fetch_last_item_wins_witness :
  fetch_bitcoin_price january_1970
    (Some ([(0%Z, 1.25%float)]
           ++ (3600000%Z, 7.125%float) :: [(86400000%Z, 2.5%float)]))
    !! "1970-01-01" = Some (round 7.125%float 2).
Proof.
  apply (fetch_last_item_wins january_1970 [(0%Z, 1.25%float)]
           [(86400000%Z, 2.5%float)] 3600000%Z 7.125%float "1970-01-01").
  - repeat constructor; by eexists.
  - reflexivity.
  - repeat constructor; vm_compute; discriminate.
Defined.

Lemma fetch_days_witness :
  (∀ d, is_Some (fetch_bitcoin_price january_1970
                   (Some [(0%Z, 1.25%float); (86400000%Z, 2.5%float)]) !! d)
        ↔ Exists (λ item, january_1970 item.1 = Some d)
            [(0%Z, 1.25%float); (86400000%Z, 2.5%float)])
  ∧ size (fetch_bitcoin_price january_1970
            (Some [(0%Z, 1.25%float); (86400000%Z, 2.5%float)]))
    ≤ length [(0%Z, 1.25%float); (86400000%Z, 2.5%float)]
  ∧ (size (fetch_bitcoin_price january_1970
             (Some [(0%Z, 1.25%float); (86400000%Z, 2.5%float)])) = 0
     ↔ [(0%Z, 1.25%float); (86400000%Z, 2.5%float)] = []).
Proof.
  apply (fetch_days january_1970
           [(0%Z, 1.25%float); (86400000%Z, 2.5%float)]).
  repeat constructor; by eexists.
Defined.

Lemma main_without_prices_witness :
  fetch_bitcoin_price january_1970 (Some [((-1)%Z, 1.25%float)]) = ∅
  ∧ main (Some (saved (["2024-01-01"], [0.5%float])))
      (fetch_bitcoin_price january_1970 (Some [((-1)%Z, 1.25%float)]))
      (Some 105%float) (Some 100%float) "2024-01-02" "2024-01-02T09:00:00"
    = Outcome None None.
Proof.
  apply (main_without_prices january_1970 (Some [((-1)%Z, 1.25%float)])).
  right. right. exists [((-1)%Z, 1.25%float)]. split; [reflexivity|].
  constructor. reflexivity.
Defined.

(** * The premium calculator on special prices *)

Lemma float_of_SF (x : float) sf : Prim2SF x = sf → x = SF2Prim sf.
Proof. intros <-. by rewrite SF2Prim_Prim2SF. Qed.

Lemma sub_self (a : float) s m e :
  Prim2SF a = S754_finite s m e → (a - a)%float = 0%float.
Proof.
  intros Ha. apply (float_of_SF _ (S754_zero false)). rewrite sub_spec, Ha.
  unfold SF64sub, SFsub. rewrite Z.min_id. unfold shl_align.
  rewrite Z.sub_diag. by destruct s.
Qed.

Lemma zero_div (a : float) s m e :
  Prim2SF a = S754_finite s m e → (0 / a)%float = SF2Prim (S754_zero s).
Proof. intros Ha. apply float_of_SF. rewrite div_spec, Ha. by destruct s. Qed.

Lemma eqb_zero_finite (a : float) s m e :
  Prim2SF a = S754_finite s m e → (a =? 0)%float = false.
Proof. intros Ha. rewrite FloatAxioms.eqb_spec, Ha. by destruct s. Qed.

Lemma nan_sub_r (a : float) : (a - nan)%float = nan.
Proof.
  apply (float_of_SF _ S754_nan). rewrite sub_spec.
  by destruct (Prim2SF a) as [| | |[]].
Qed.

Lemma nan_sub_l (b : float) : (nan - b)%float = nan.
Proof.
  apply (float_of_SF _ S754_nan). rewrite sub_spec.
  by destruct (Prim2SF b) as [| | |[]].
Qed.

Lemma nan_div_l (b : float) : (nan / b)%float = nan.
Proof.
  apply (float_of_SF _ S754_nan). rewrite div_spec.
  by destruct (Prim2SF b) as [| | |[]].
Qed.

(** X14: when the two spot prices are the same finite, non-zero float
    [(-1)^s * m * 2^e], the premium is zero: [0.0] for a positive price,
    [-0.0] for a negative one. *)
Theorem calculate_premium_equal_prices (a : float) s m e :
  Prim2SF a = S754_finite s m e →
  calculate_premium (Some a) (Some a)
  = Some (if s then (-0)%float else 0%float).
Proof.
  intros Ha. unfold calculate_premium.
  rewrite (eqb_zero_finite a s m e Ha), (sub_self a s m e Ha),
    (zero_div a s m e Ha).
  by destruct s.
Qed.

Lemma calculate_premium_equal_prices_witness :
  calculate_premium (Some 50000%float) (Some 50000%float) = Some 0%float.
Proof.
  apply (calculate_premium_equal_prices 50000%float false
           6871947673600000%positive (-37)%Z).
  reflexivity.
Defined.

(** X15: a NaN spot price is not caught by the guards: when the Binance
    price does not compare equal to 0 and one of the two prices is NaN,
    the premium is NaN, not [None]. *)
Theorem calculate_premium_nan (a b : float) :
  (b =? 0)%float = false → a = nan ∨ b = nan →
  calculate_premium (Some a) (Some b) = Some nan.
Proof.
  intros Hb Hnan. unfold calculate_premium. rewrite Hb.
  destruct Hnan as [-> | ->].
  - by rewrite nan_sub_l, nan_div_l.
  - by rewrite nan_sub_r.
Qed.

Lemma calculate_premium_nan_witness :
  calculate_premium (Some nan) (Some 100%float) = Some nan.
Proof.
  apply (calculate_premium_nan nan 100%float).
  - reflexivity.
  - left. reflexivity.
Defined.
